(** * OpenID Connect identity provider endpoint and overlay inspector

    A shallow embedding of [satellite/oidc/endpoint.go] and
    [satellite/overlay/inspector.go].

    The handlers are straight-line Go: they read the request, call their
    collaborators (token store, console service, protocol engine,
    [encoding/json], [net/http]) and return.  Each handler is embedded as a
    computation in a small trace monad: its value is the sequence of calls it
    makes on its collaborators, in program order, the answers being those of
    the collaborators it was built with.  The deferred [mon.Task()] of each
    function only reports [ctx] and [err] to the monitoring package and is
    left out. *)

From Stdlib Require Import ZArith Lia Strings.Byte.
From stdpp Require Import base strings gmap.

Local Open Scope string_scope.

(* ===================================================================== *)
(** * Go conventions *)
(* ===================================================================== *)

Module Go.

(** A non-nil value of the interface [error]; the source only ever calls
    its [Error()] method.  The nil error is [None]. *)
Record error : Type := { Error : string }.

(** [time.Duration] is a signed count of nanoseconds. *)
Definition Duration : Type := Z.

(** Conversion of an integer to [int64] (two's complement wrap-around). *)
Definition int64 (z : Z) : Z := (z + 2 ^ 63) mod 2 ^ 64 - 2 ^ 63.

(** [len(s)] of a slice, as an integer. *)
Definition len {A : Type} (s : list A) : Z := Z.of_nat (length s).

(** [err != nil] *)
Definition is_err (err : option error) : bool :=
  match err with Some _ => true | None => false end.

End Go.

(* ===================================================================== *)
(** * Package [strings] *)
(* ===================================================================== *)

Module GoStrings.

(** [s[n:]] for [n <= len(s)]. *)
Fixpoint slice_from (n : nat) (s : string) : string :=
  match n, s with
  | O, _ => s
  | S n', String _ s' => slice_from n' s'
  | S _, EmptyString => EmptyString
  end.

(** [strings.HasPrefix(s, prefix)]: byte-wise comparison. *)
Definition HasPrefix (s prefix : string) : bool := String.prefix prefix s.

(** [strings.TrimPrefix(s, prefix)]: [s] without the leading [prefix], or
    [s] itself when it does not start with [prefix]. *)
Definition TrimPrefix (s prefix : string) : string :=
  if HasPrefix s prefix then slice_from (String.length prefix) s else s.

End GoStrings.

(* ===================================================================== *)
(** * Package [net/http] (the part the handlers touch) *)
(* ===================================================================== *)

Module Http.

Definition StatusBadRequest : Z := 400.
Definition StatusUnauthorized : Z := 401.
Definition StatusInternalServerError : Z := 500.

(** [http.Header] is a [map[string][]string]. *)
Definition Header_Get (h : gmap string (list string)) (key : string) : string :=
  match h !! key with
  | Some (v :: _) => v
  | _ => ""
  end.

(** An incoming request: its header and its context (of some type [Ctx]). *)
Record Request (Ctx : Type) : Type := {
  Header : gmap string (list string);
  Context_ : Ctx
}.
Arguments Header {Ctx} _.
Arguments Context_ {Ctx} _.

End Http.

(* ===================================================================== *)
(** * Package [satellite/oidc] *)
(* ===================================================================== *)

Module Oidc.
Import Go GoStrings Http.

Section Model.
(** Types of packages that are not part of this development:
    [uuid.UUID], [context.Context], [time.Time], [console.UserStatus]
    and the client store. *)
Context {UUID Ctx Time UserStatus ClientStore : Type}.

(** ** Records *)

(** [ProviderConfig] defines a subset of elements used by OIDC to
    auto-discover endpoints. *)
Record ProviderConfig : Type := {
  Issuer : string;
  AuthURL : string;
  TokenURL : string;
  UserInfoURL : string
}.

(** [UserInfo] provides a semi-standard object for common user
    information. *)
Record UserInfo : Type := {
  Subject : UUID;
  Email : string;
  EmailVerified : bool;
  Project : string;
  Buckets : list string;
  Cubbyhole : string
}.

(** The fields of [console.User] the endpoint reads. *)
Record User : Type := {
  User_ID : UUID;
  User_Email : string;
  User_Status : UserStatus
}.

(** The result of [console.GetAuth]: the endpoint reads [auth.User]. *)
Record Authorization : Type := { Auth_User : User }.

(** A value of the interface [oauth2.TokenInfo], through the two getters
    the endpoint calls. *)
Record TokenInfo : Type := {
  GetScope : string;
  GetUserID : string
}.

(** A value of the interface [oauth2.TokenStore], through the method the
    endpoint calls.  Go returns the pair [(info, err)]; either may be
    nil. *)
Record TokenStore : Type := {
  GetByAccess : Ctx -> string -> option TokenInfo * option error
}.

(** [*console.Service], through the method the endpoint calls. *)
Record ConsoleService : Type := {
  GetUser : Ctx -> UUID -> User * option error
}.

(** The oidc [*Service] hands out its two stores. *)
Record Service : Type := {
  Service_TokenStore : TokenStore;
  Service_ClientStore : ClientStore
}.

(** ** The protocol engine's configuration *)

(** [manage.RefreshingConfig], as the struct literal in [NewEndpoint]
    fills it. *)
Record RefreshingConfig : Type := {
  AccessTokenExp : Duration;
  RefreshTokenExp : Duration;
  IsGenerateRefresh : bool
}.

Inductive AuthorizeGenerate : Type := UUIDAuthorizeGenerate.

Inductive AccessGenerate : Type :=
  MacaroonAccessGenerate (service : ConsoleService).

(** A [*manage.Manager] is known by the configuration calls made on it
    since [manage.NewManager()], oldest first. *)
Inductive ManagerCall : Type :=
| MapClientStorage (stor : ClientStore)
| MapTokenStorage (stor : TokenStore)
| MapAuthorizeGenerate (gen : AuthorizeGenerate)
| SetAuthorizeCodeExp (exp : Duration)
| MapAccessGenerate (gen : AccessGenerate)
| SetRefreshTokenCfg (cfg : RefreshingConfig).

Definition Manager : Type := list ManagerCall.

Definition NewManager : Manager := [].

(** A [*server.Server]: the manager it was built over and the user
    authorization handler installed on it. *)
Record Server : Type := {
  Server_Manager : Manager;
  UserAuthorizationHandler : option (Request Ctx -> string * option error)
}.

Definition NewDefaultServer (manager : Manager) : Server :=
  {| Server_Manager := manager; UserAuthorizationHandler := None |}.

Definition SetUserAuthorizationHandler
    (svr : Server) (handler : Request Ctx -> string * option error) : Server :=
  {| Server_Manager := Server_Manager svr;
     UserAuthorizationHandler := Some handler |}.

(** [Endpoint] implements an OpenID Connect (OIDC) Identity Provider. *)
Record Endpoint : Type := {
  tokenStore : TokenStore;
  service : ConsoleService;
  server : Server;
  config : ProviderConfig
}.

(** ** What [encoding/json] sees of a struct

    The encoder walks the struct's fields in declaration order and names
    each by its [json:"..."] tag. *)
Inductive FieldValue : Type :=
| VString (s : string)
| VBool (b : bool)
| VStrings (l : list string)
| VUUID (u : UUID).

Definition Fields : Type := list (string * FieldValue).

Definition ProviderConfig_fields (c : ProviderConfig) : Fields :=
  [ ("issuer", VString (Issuer c));
    ("authorization_endpoint", VString (AuthURL c));
    ("token_endpoint", VString (TokenURL c));
    ("userinfo_endpoint", VString (UserInfoURL c)) ].

Definition UserInfo_fields (u : UserInfo) : Fields :=
  [ ("sub", VUUID (Subject u));
    ("email", VString (Email u));
    ("email_verified", VBool (EmailVerified u));
    ("project", VString (Project u));
    ("buckets", VStrings (Buckets u));
    ("cubbyhole", VString (Cubbyhole u)) ].

(** ** Functions of other packages

    Everything the endpoint calls and this development does not contain:
    its behaviour is a parameter of the model. *)
Record Externals : Type := {
  (** [console.Active] *)
  Active : UserStatus;
  (** [parseScope] of this package (not part of this development) *)
  parseScope : string -> UserInfo * list string * option error;
  (** [uuid.FromString] and [UUID.String] *)
  uuid_FromString : string -> UUID * option error;
  uuid_String : UUID -> string;
  (** [json.Marshal], applied to the fields of the struct it is given *)
  json_Marshal : Fields -> list byte * option error;
  (** [time.Now()] during the request *)
  time_Now : Time;
  (** [console.GetAuth] and [console.ErrUnauthorized.Wrap] *)
  console_GetAuth : Ctx -> Authorization * option error;
  ErrUnauthorized_Wrap : error -> error;
  (** the protocol engine: what [HandleAuthorizeRequest] and
      [HandleTokenRequest] return for a request *)
  server_HandleAuthorizeRequest : Server -> Request Ctx -> option error;
  server_HandleTokenRequest : Server -> Request Ctx -> option error
}.

(** ** Calls and the trace monad *)

(** The calls a handler makes on its collaborators and on the response
    writer [w]. *)
Inductive Call : Type :=
| TokenStore_GetByAccess (ctx : Ctx) (access : string)
| Service_GetUser (ctx : Ctx) (id : UUID)
| Server_HandleAuthorizeRequest (r : Request Ctx)
| Server_HandleTokenRequest (r : Request Ctx)
| http_Error (error : string) (code : Z)
| http_ServeContent (r : Request Ctx) (name : string) (modtime : Time)
    (content : list byte).

(** A computation returns a value and the calls it made, oldest first. *)
Definition M (A : Type) : Type := A * list Call.

Definition ret {A : Type} (a : A) : M A := (a, []).

Definition bind {A B : Type} (m : M A) (k : A -> M B) : M B :=
  let '(a, t1) := m in
  let '(b, t2) := k a in
  (b, (t1 ++ t2)%list).

(** Make call [c], whose answer is [a]. *)
Definition call {A : Type} (c : Call) (a : A) : M A := (a, [c]).

Definition trace {A : Type} (m : M A) : list Call := snd m.

(** ** Construction and handlers *)

Context `{EqDecision UserStatus}.
Variable X : Externals.

#[local] Instance M_ret : MRet M := @ret.
#[local] Instance M_bind : MBind M := fun A B k m => bind m k.

(** A setter call on the manager. *)
Definition configure (m : Manager) (c : ManagerCall) : Manager :=
  (m ++ [c])%list.

(** [NewEndpoint] constructs an OpenID identity provider. *)
Definition NewEndpoint (externalAddress : string) (oidcService : Service)
    (service : ConsoleService)
    (codeExpiry accessTokenExpiry refreshTokenExpiry : Duration) : Endpoint :=
  let manager := NewManager in
  let tokenStore := Service_TokenStore oidcService in
  let manager := configure manager (MapClientStorage (Service_ClientStore oidcService)) in
  let manager := configure manager (MapTokenStorage tokenStore) in
  let manager := configure manager (MapAuthorizeGenerate UUIDAuthorizeGenerate) in
  let manager := configure manager (SetAuthorizeCodeExp codeExpiry) in
  let manager := configure manager (MapAccessGenerate (MacaroonAccessGenerate service)) in
  let manager := configure manager (SetRefreshTokenCfg
    {| AccessTokenExp := accessTokenExpiry;
       RefreshTokenExp := refreshTokenExpiry;
       IsGenerateRefresh := (refreshTokenExpiry >? 0)%Z |}) in
  let svr := NewDefaultServer manager in
  let svr := SetUserAuthorizationHandler svr (fun r =>
    let '(auth, err) := console_GetAuth X (Context_ r) in
    match err with
    | Some err => ("", Some (ErrUnauthorized_Wrap X err))
    | None => (uuid_String X (User_ID (Auth_User auth)), None)
    end) in
  (* externalAddress _should_ end with a '/' suffix based on the calling path *)
  {| tokenStore := tokenStore;
     service := service;
     server := svr;
     config :=
       {| Issuer := externalAddress;
          AuthURL := externalAddress ++ "oauth/v2/authorize";
          TokenURL := externalAddress ++ "oauth/v2/tokens";
          UserInfoURL := externalAddress ++ "oauth/v2/userinfo" |} |}.

(** [http.Error(w, error, code)] and
    [http.ServeContent(w, r, name, modtime, bytes.NewReader(content))]. *)
Definition Error_ (error : string) (code : Z) : M unit :=
  call (http_Error error code) tt.

Definition ServeContent (r : Request Ctx) (name : string) (modtime : Time)
    (content : list byte) : M unit :=
  call (http_ServeContent r name modtime content) tt.

(** [WellKnownConfiguration] renders the identity provider configuration
    that points clients to various endpoints. *)
Definition WellKnownConfiguration (e : Endpoint) (r : Request Ctx) : M unit :=
  let '(data, err) := json_Marshal X (ProviderConfig_fields (config e)) in
  if is_err err then Error_ "" StatusInternalServerError
  else ServeContent r "" (time_Now X) data.

(** [AuthorizeUser] is called from an authenticated context granting the
    requester access to the application. *)
Definition AuthorizeUser (e : Endpoint) (r : Request Ctx) : M unit :=
  err ← call (Server_HandleAuthorizeRequest r)
             (server_HandleAuthorizeRequest X (server e) r);
  match err with
  | Some err => Error_ (Error err) StatusBadRequest
  | None => mret tt
  end.

(** [Tokens] exchanges unexpired refresh tokens or codes provided by
    [AuthorizeUser] for the associated set of tokens. *)
Definition Tokens (e : Endpoint) (r : Request Ctx) : M unit :=
  err ← call (Server_HandleTokenRequest r)
             (server_HandleTokenRequest X (server e) r);
  match err with
  | Some err => Error_ (Error err) StatusBadRequest
  | None => mret tt
  end.

(** The three assignments [userInfo.Subject = user.ID],
    [userInfo.Email = user.Email], [userInfo.EmailVerified = true]. *)
Definition fill_standard_claims (userInfo : UserInfo) (user : User) : UserInfo :=
  {| Subject := User_ID user;
     Email := User_Email user;
     EmailVerified := true;
     Project := Project userInfo;
     Buckets := Buckets userInfo;
     Cubbyhole := Cubbyhole userInfo |}.

(** [UserInfo] uses the provided access token to look up the associated
    user information.  (The method [Endpoint.UserInfo]; the struct of the
    same name is [UserInfo] above.) *)
Definition Endpoint_UserInfo (e : Endpoint) (r : Request Ctx) : M unit :=
  let ctx := Context_ r in
  let accessToken := Header_Get (Header r) "Authorization" in
  if negb (HasPrefix accessToken "Bearer ") then
    Error_ "" StatusUnauthorized
  else
  let accessToken := TrimPrefix accessToken "Bearer " in
  found ← call (TokenStore_GetByAccess ctx accessToken)
               (GetByAccess (tokenStore e) ctx accessToken);
  match found with
  | (Some info, None) =>
      let '(userInfo, _, err) := parseScope X (GetScope info) in
      if is_err err then Error_ "" StatusUnauthorized else
      let '(userID, err) := uuid_FromString X (GetUserID info) in
      if is_err err then Error_ "" StatusUnauthorized else
      looked ← call (Service_GetUser ctx userID)
                    (GetUser (service e) ctx userID);
      let '(user, err) := looked in
      if is_err err then Error_ "" StatusUnauthorized else
      if negb (bool_decide (User_Status user = Active X)) then
        Error_ "" StatusUnauthorized
      else
      let userInfo := fill_standard_claims userInfo user in
      let '(data, err) := json_Marshal X (UserInfo_fields userInfo) in
      if is_err err then Error_ "" StatusInternalServerError
      else ServeContent r "" (time_Now X) data
  | (_, Some _) | (None, _) =>
      (* err != nil || info == nil *)
      Error_ "" StatusUnauthorized
  end.

(** ** Vocabulary for the statements *)

(** The calls of a trace that write the response: what the client sees. *)
Definition is_write (c : Call) : bool :=
  match c with
  | http_Error _ _ | http_ServeContent _ _ _ _ => true
  | _ => false
  end.

Definition response (t : list Call) : list Call := List.filter is_write t.

(** The calls of a trace that consult the token store, and those that
    consult the console service. *)
Definition is_store_lookup (c : Call) : bool :=
  match c with
  | TokenStore_GetByAccess _ _ => true
  | _ => false
  end.

Definition is_user_lookup (c : Call) : bool :=
  match c with
  | Service_GetUser _ _ => true
  | _ => false
  end.

(** The Authorization header of a request, as the handler reads it. *)
Definition authorization (r : Request Ctx) : string :=
  Header_Get (Header r) "Authorization".

(** The reply to a request [r] that passed every check, for the document
    [doc] handed to the encoder. *)
Definition served (r : Request Ctx) (doc : UserInfo) : Call :=
  match json_Marshal X (UserInfo_fields doc) with
  | (data, None) => http_ServeContent r "" (time_Now X) data
  | (_, Some _) => http_Error "" StatusInternalServerError
  end.

(** The ways the handler turns down a token record [info] that the store
    returned: each cause supposes that the checks before it went through. *)
Inductive Rejected (e : Endpoint) (ctx : Ctx) (info : TokenInfo) : Prop :=
| ScopeUnparsable scoped segments err :
    parseScope X (GetScope info) = (scoped, segments, Some err) ->
    Rejected e ctx info
| UserIDUnparsable scoped segments id err :
    parseScope X (GetScope info) = (scoped, segments, None) ->
    uuid_FromString X (GetUserID info) = (id, Some err) ->
    Rejected e ctx info
| UserLookupFailed scoped segments id user err :
    parseScope X (GetScope info) = (scoped, segments, None) ->
    uuid_FromString X (GetUserID info) = (id, None) ->
    GetUser (service e) ctx id = (user, Some err) ->
    Rejected e ctx info
| AccountNotActive scoped segments id user :
    parseScope X (GetScope info) = (scoped, segments, None) ->
    uuid_FromString X (GetUserID info) = (id, None) ->
    GetUser (service e) ctx id = (user, None) ->
    User_Status user <> Active X ->
    Rejected e ctx info.

(** The ways a user-info request fails. *)
Inductive UserInfoFailure (e : Endpoint) (r : Request Ctx) : Prop :=
| NoBearerPrefix :
    HasPrefix (authorization r) "Bearer " = false ->
    UserInfoFailure e r
| TokenNotFound info err :
    HasPrefix (authorization r) "Bearer " = true ->
    GetByAccess (tokenStore e) (Context_ r)
      (TrimPrefix (authorization r) "Bearer ") = (info, err) ->
    err <> None \/ info = None ->
    UserInfoFailure e r
| TokenRejected info :
    HasPrefix (authorization r) "Bearer " = true ->
    GetByAccess (tokenStore e) (Context_ r)
      (TrimPrefix (authorization r) "Bearer ") = (Some info, None) ->
    Rejected e (Context_ r) info ->
    UserInfoFailure e r.

(** A token record that passes every check, with the user it resolves to
    and the scope it decodes to. *)
Inductive Accepted (e : Endpoint) (ctx : Ctx) (info : TokenInfo)
    (scoped : UserInfo) (user : User) : Prop :=
| AccountActive segments id :
    parseScope X (GetScope info) = (scoped, segments, None) ->
    uuid_FromString X (GetUserID info) = (id, None) ->
    GetUser (service e) ctx id = (user, None) ->
    User_Status user = Active X ->
    Accepted e ctx info scoped user.

End Model.

Arguments UserInfo : clear implicits.
Arguments User : clear implicits.
Arguments Authorization : clear implicits.
Arguments TokenStore : clear implicits.
Arguments ConsoleService : clear implicits.
Arguments Service : clear implicits.
Arguments AccessGenerate : clear implicits.
Arguments ManagerCall : clear implicits.
Arguments Manager : clear implicits.
Arguments Server : clear implicits.
Arguments Endpoint : clear implicits.
Arguments FieldValue : clear implicits.
Arguments Fields : clear implicits.
Arguments Externals : clear implicits.
Arguments Call : clear implicits.
Arguments M : clear implicits.

End Oidc.

(* ===================================================================== *)
(** * Package [satellite/overlay] *)
(* ===================================================================== *)

Module Overlay.
Import Go.

Section Model.
Context {Ctx CountNodesRequest : Type}.

(** [storage.Keys]: a slice of keys, each a byte slice. *)
Definition Keys : Type := list (list byte).

(** The overlay [*Service], through the method the inspector calls. *)
Record Service : Type := {
  Inspect : Ctx -> Keys * option error
}.

(** [internalpb.CountNodesResponse] *)
Record CountNodesResponse : Type := { Count : Z }.

(** [Inspector] is a RPC service for inspecting overlay internals. *)
Record Inspector : Type := { service : Service }.

(** [NewInspector] creates an [Inspector]. *)
Definition NewInspector (service : Service) : Inspector :=
  {| service := service |}.

(** [CountNodes] returns the number of nodes in the overlay. *)
Definition CountNodes (srv : Inspector) (ctx : Ctx) (req : CountNodesRequest)
    : option CountNodesResponse * option error :=
  let '(overlayKeys, err) := Inspect (service srv) ctx in
  match err with
  | Some err => (None, Some err)
  | None => (Some {| Count := int64 (len overlayKeys) |}, None)
  end.

End Model.

Arguments Service : clear implicits.
Arguments Inspector : clear implicits.

End Overlay.

(* ===================================================================== *)
(** * A small deployment, for the examples *)
(* ===================================================================== *)

Module Sample.
Import Go GoStrings Http Oidc.

(** Identifiers are numbers, contexts carry nothing, time is a Unix stamp
    and a status is an integer, [1] meaning active. *)
Definition UUID : Type := nat.
Definition Ctx : Type := unit.
Definition Time : Type := Z.
Definition UserStatus : Type := Z.
Definition ClientStore : Type := unit.

Definition alice : User UUID UserStatus :=
  {| User_ID := 1%nat; User_Email := "alice@example.test"; User_Status := 1%Z |}.

(** An account that was closed. *)
Definition bob : User UUID UserStatus :=
  {| User_ID := 2%nat; User_Email := "bob@example.test"; User_Status := 2%Z |}.

Definition nobody : User UUID UserStatus :=
  {| User_ID := 0%nat; User_Email := ""; User_Status := 0%Z |}.

(** What the scope parser of this deployment extracts from ["grant"]; the
    three standard fields hold values that did not come from the account
    service. *)
Definition granted : UserInfo UUID :=
  {| Subject := 99%nat; Email := "stale@token.test"; EmailVerified := false;
     Project := "P"; Buckets := ["b1"; "b2"]; Cubbyhole := "ciphertext" |}.

Definition empty_info : UserInfo UUID :=
  {| Subject := 0%nat; Email := ""; EmailVerified := false;
     Project := ""; Buckets := []; Cubbyhole := "" |}.

Definition externals : Externals UUID Ctx Time UserStatus ClientStore :=
  {| Active := 1%Z;
     parseScope := fun scope =>
       if String.eqb scope "grant" then (granted, ["grant"], None)
       else (empty_info, [], Some {| Error := "malformed scope" |});
     uuid_FromString := fun s =>
       if String.eqb s "u1" then (1%nat, None)
       else if String.eqb s "u2" then (2%nat, None)
       else if String.eqb s "u3" then (3%nat, None)
       else (0%nat, Some {| Error := "invalid uuid" |});
     uuid_String := fun id =>
       match id with 1%nat => "u1" | 2%nat => "u2" | 3%nat => "u3" | _ => "u0" end;
     json_Marshal := fun fields =>
       (String.list_byte_of_string (String.concat "," (map fst fields)), None);
     time_Now := 1700000000%Z;
     console_GetAuth := fun _ =>
       ({| Auth_User := nobody |}, Some {| Error := "session cookie expired" |});
     ErrUnauthorized_Wrap := fun err =>
       {| Error := "unauthorized: " ++ Error err |};
     server_HandleAuthorizeRequest := fun _ _ => None;
     server_HandleTokenRequest := fun _ _ => None |}.

(** The same deployment with an encoder that always fails. *)
Definition externals_broken_json : Externals UUID Ctx Time UserStatus ClientStore :=
  {| Active := Active externals;
     parseScope := parseScope externals;
     uuid_FromString := uuid_FromString externals;
     uuid_String := uuid_String externals;
     json_Marshal := fun _ => ([], Some {| Error := "json: unsupported value" |});
     time_Now := time_Now externals;
     console_GetAuth := console_GetAuth externals;
     ErrUnauthorized_Wrap := ErrUnauthorized_Wrap externals;
     server_HandleAuthorizeRequest := server_HandleAuthorizeRequest externals;
     server_HandleTokenRequest := server_HandleTokenRequest externals |}.

(** A token store with five access tokens on record, one of them under the
    empty string, and one whose lookup reports expiry. *)
Definition tokens : TokenStore Ctx :=
  {| GetByAccess := fun _ access =>
       if String.eqb access "A1" then (Some {| GetScope := "grant"; GetUserID := "u1" |}, None)
       else if String.eqb access "A2" then (Some {| GetScope := "grant"; GetUserID := "u2" |}, None)
       else if String.eqb access "A3" then (Some {| GetScope := "grant"; GetUserID := "u3" |}, None)
       else if String.eqb access "A4" then (Some {| GetScope := "grant"; GetUserID := "zz" |}, None)
       else if String.eqb access "" then (Some {| GetScope := "???"; GetUserID := "u1" |}, None)
       else if String.eqb access "old" then (None, Some {| Error := "token expired" |})
       else (None, None) |}.

Definition accounts : ConsoleService UUID Ctx UserStatus :=
  {| GetUser := fun _ id =>
       match id with
       | 1%nat => (alice, None)
       | 2%nat => (bob, None)
       | _ => (nobody, Some {| Error := "user not found" |})
       end |}.

Definition oidcService : Service Ctx ClientStore :=
  {| Service_TokenStore := tokens; Service_ClientStore := tt |}.

Definition endpoint : Endpoint UUID Ctx UserStatus ClientStore :=
  NewEndpoint externals "https://sat.example.test/" oidcService accounts
    600000000000%Z 3600000000000%Z 0%Z.

(** A request carrying the given Authorization header value. *)
Definition bearing (value : string) : Request Ctx :=
  {| Header := {[ "Authorization" := [value] ]}; Context_ := tt |}.

(** A request without an Authorization header. *)
Definition anonymous : Request Ctx :=
  {| Header := ∅; Context_ := tt |}.

Definition keys3 : Overlay.Keys :=
  [ [x01]; [x02]; [x03] ].

Definition overlay_up : Overlay.Service Ctx :=
  {| Overlay.Inspect := fun _ => (keys3, None) |}.

(** An overlay without nodes. *)
Definition overlay_empty : Overlay.Service Ctx :=
  {| Overlay.Inspect := fun _ => ([], None) |}.

Definition overlay_down : Overlay.Service Ctx :=
  {| Overlay.Inspect := fun _ => ([], Some {| Error := "database unavailable" |}) |}.

End Sample.

(* ===================================================================== *)
(** * Properties of [strings.HasPrefix] and [strings.TrimPrefix] *)
(* ===================================================================== *)

Import Go GoStrings Http Oidc.

Lemma HasPrefix_app (p t : string) : HasPrefix (p ++ t) p = true.
Proof.
  unfold HasPrefix. induction p as [|c p IH]; simpl.
  - now destruct t.
  - destruct (Ascii.ascii_dec c c) as [_|ne]; [exact IH | now destruct ne].
Qed.

Lemma slice_from_app (p t : string) : slice_from (String.length p) (p ++ t) = t.
Proof. induction p as [|c p IH]; simpl; [reflexivity | exact IH]. Qed.

Lemma TrimPrefix_app (p t : string) : TrimPrefix (p ++ t) p = t.
Proof. unfold TrimPrefix. now rewrite HasPrefix_app, slice_from_app. Qed.

Lemma HasPrefix_split (s p : string) :
  HasPrefix s p = true -> s = p ++ TrimPrefix s p.
Proof.
  intros Hp. unfold TrimPrefix. rewrite Hp. unfold HasPrefix in Hp.
  revert s Hp. induction p as [|c p IH]; intros s Hp; simpl.
  - reflexivity.
  - destruct s as [|d s]; simpl in Hp; [discriminate|].
    destruct (Ascii.ascii_dec c d) as [->|]; [|discriminate].
    unfold String.append; fold String.append. f_equal. now apply IH.
Qed.

(** The prefix test is case-sensitive, and a missing header reads as the
    empty string. *)
Example HasPrefix_lowercase : HasPrefix "bearer A1" "Bearer " = false.
Proof. reflexivity. Qed.

Example Header_Get_missing : Header_Get ∅ "Authorization" = "".
Proof. reflexivity. Qed.

(* ===================================================================== *)
(** * Properties of the identity provider endpoint *)
(* ===================================================================== *)

Section EndpointProperties.
Context {UUID Ctx Time UserStatus ClientStore : Type}.
Context `{EqDecision UserStatus}.
Variable X : Externals UUID Ctx Time UserStatus ClientStore.

Implicit Types (e : Endpoint UUID Ctx UserStatus ClientStore) (r : Request Ctx).
Implicit Types (info : TokenInfo) (scoped : UserInfo UUID).
Implicit Types (user : User UUID UserStatus).

Local Abbreviation Unauthorized := (http_Error "" StatusUnauthorized).
Local Abbreviation bearer r := (TrimPrefix (authorization r) "Bearer ").

(** Unfold a handler down to its matches on collaborator answers. *)
Ltac run :=
  unfold Endpoint_UserInfo, WellKnownConfiguration, AuthorizeUser, Tokens,
    authorization in *;
  cbn [mbind M_bind mret M_ret ret bind call Error_ ServeContent trace
       snd fst is_err negb app].

(** Rewrite with the answers of the collaborators, one call at a time. *)
Ltac answer H := rewrite H; run.

(** ** The trace monad *)

Lemma trace_bind_call {A B : Type} (c : Call UUID Ctx Time) (a : A)
    (k : A -> M UUID Ctx Time B) :
  trace (bind (call c a) k) = c :: trace (k a).
Proof. unfold bind, call, trace. now destruct (k a) as [b t]. Qed.

(** ** The traces of [Endpoint.UserInfo], path by path *)

Lemma trace_no_prefix e r :
  HasPrefix (authorization r) "Bearer " = false ->
  trace (Endpoint_UserInfo X e r) = [Unauthorized].
Proof. intros Hp. run. now answer Hp. Qed.

Lemma trace_lookup_first e r :
  HasPrefix (authorization r) "Bearer " = true ->
  exists rest,
    trace (Endpoint_UserInfo X e r)
    = TokenStore_GetByAccess (Context_ r) (bearer r) :: rest.
Proof.
  intros Hp. unfold Endpoint_UserInfo, authorization in *. rewrite Hp.
  cbn [negb]. unfold mbind, M_bind. eexists. apply trace_bind_call.
Qed.

Lemma trace_token_missing e r oinfo err :
  HasPrefix (authorization r) "Bearer " = true ->
  GetByAccess (tokenStore e) (Context_ r) (bearer r) = (oinfo, err) ->
  err <> None \/ oinfo = None ->
  trace (Endpoint_UserInfo X e r)
  = [TokenStore_GetByAccess (Context_ r) (bearer r); Unauthorized].
Proof.
  intros Hp Hget Hbad. run. answer Hp. answer Hget.
  destruct oinfo as [info|], err as [err|]; try reflexivity.
  now destruct Hbad.
Qed.

Lemma trace_rejected e r info :
  HasPrefix (authorization r) "Bearer " = true ->
  GetByAccess (tokenStore e) (Context_ r) (bearer r) = (Some info, None) ->
  Rejected X e (Context_ r) info ->
  exists calls,
    trace (Endpoint_UserInfo X e r)
    = TokenStore_GetByAccess (Context_ r) (bearer r) :: calls ++ [Unauthorized]
    /\ response calls = [].
Proof.
  intros Hp Hget [scoped segments err Hscope
                 |scoped segments id err Hscope Hid
                 |scoped segments id user err Hscope Hid Huser
                 |scoped segments id user Hscope Hid Huser Hstatus].
  - exists []. split; [|reflexivity].
    run. answer Hp. answer Hget. now answer Hscope.
  - exists []. split; [|reflexivity].
    run. answer Hp. answer Hget. answer Hscope. now answer Hid.
  - exists [Service_GetUser (Context_ r) id]. split; [|reflexivity].
    run. answer Hp. answer Hget. answer Hscope. answer Hid. now answer Huser.
  - exists [Service_GetUser (Context_ r) id]. split; [|reflexivity].
    run. answer Hp. answer Hget. answer Hscope. answer Hid. answer Huser.
    now rewrite bool_decide_eq_false_2.
Qed.

Lemma trace_accepted e r info scoped user :
  HasPrefix (authorization r) "Bearer " = true ->
  GetByAccess (tokenStore e) (Context_ r) (bearer r) = (Some info, None) ->
  Accepted X e (Context_ r) info scoped user ->
  exists id,
    uuid_FromString X (GetUserID info) = (id, None)
    /\ trace (Endpoint_UserInfo X e r)
       = [TokenStore_GetByAccess (Context_ r) (bearer r);
          Service_GetUser (Context_ r) id;
          served X r (fill_standard_claims scoped user)].
Proof.
  intros Hp Hget [segments id Hscope Hid Huser Hstatus].
  exists id. split; [assumption|].
  run. answer Hp. answer Hget. answer Hscope. answer Hid. answer Huser.
  rewrite bool_decide_eq_true_2 by assumption. run. unfold served.
  now destruct (json_Marshal X _) as [data [err|]].
Qed.

(** Every token record the store returns is either turned down or passes. *)
Lemma rejected_or_accepted e (ctx : Ctx) info :
  Rejected X e ctx info
  \/ exists scoped user, Accepted X e ctx info scoped user.
Proof.
  destruct (parseScope X (GetScope info)) as [[scoped segments] [err|]] eqn:Hscope;
    [left; eapply ScopeUnparsable; eassumption|].
  destruct (uuid_FromString X (GetUserID info)) as [id [err|]] eqn:Hid;
    [left; eapply UserIDUnparsable; eassumption|].
  destruct (GetUser (service e) ctx id) as [user [err|]] eqn:Huser;
    [left; eapply UserLookupFailed; eassumption|].
  destruct (decide (User_Status user = Active X)) as [Hstatus|Hstatus].
  - right. exists scoped, user. eapply AccountActive; eassumption.
  - left. eapply AccountNotActive; eassumption.
Qed.

(** Every request either fails in one of the listed ways or presents a
    token whose record passes every check. *)
Lemma UserInfo_cases e r :
  UserInfoFailure X e r
  \/ exists info scoped user,
       HasPrefix (authorization r) "Bearer " = true
       /\ GetByAccess (tokenStore e) (Context_ r) (bearer r) = (Some info, None)
       /\ Accepted X e (Context_ r) info scoped user.
Proof.
  destruct (HasPrefix (authorization r) "Bearer ") eqn:Hp;
    [|left; now apply NoBearerPrefix].
  destruct (GetByAccess (tokenStore e) (Context_ r) (bearer r))
    as [[info|] [err|]] eqn:Hget;
    try (left; eapply TokenNotFound; [eassumption..|]; intuition congruence).
  destruct (rejected_or_accepted e (Context_ r) info) as [Hrej|(scoped & user & Hacc)].
  - left. eapply TokenRejected; eassumption.
  - right. now exists info, scoped, user.
Qed.

Lemma response_app (t1 t2 : list (Call UUID Ctx Time)) :
  response (t1 ++ t2) = (response t1 ++ response t2)%list.
Proof. apply List.filter_app. Qed.

Lemma failure_response e r :
  UserInfoFailure X e r ->
  response (trace (Endpoint_UserInfo X e r)) = [Unauthorized].
Proof.
  intros [Hp|oinfo err Hp Hget Hbad|info Hp Hget Hrej].
  - now rewrite trace_no_prefix.
  - now rewrite (trace_token_missing e r oinfo err).
  - destruct (trace_rejected e r info Hp Hget Hrej) as (calls & -> & Hquiet).
    change (response (TokenStore_GetByAccess (Context_ r) (bearer r)
                        :: calls ++ [Unauthorized]))
      with (response (calls ++ [Unauthorized])).
    now rewrite response_app, Hquiet.
Qed.

Lemma served_not_unauthorized r (doc : UserInfo UUID) :
  served X r doc <> Unauthorized.
Proof. unfold served. now destruct (json_Marshal X _) as [data [err|]]. Qed.

(** ** The user-info handler *)

(** C1. Every user-info request that fails -- no [Bearer ] prefix on the
    Authorization header (a missing header included), token not found in the
    store, scope or user id that does not parse, user lookup that fails,
    account that is not active -- is answered by the one call
    [http.Error(w, "", http.StatusUnauthorized)]: status 401, empty error
    text, and the same reply for every cause. *)
Theorem UserInfo_failure_unauthorized e r :
  UserInfoFailure X e r ->
  response (trace (Endpoint_UserInfo X e r)) = [http_Error "" StatusUnauthorized]
  /\ forall e' r',
       UserInfoFailure X e' r' ->
       response (trace (Endpoint_UserInfo X e' r'))
       = response (trace (Endpoint_UserInfo X e r)).
Proof.
  intros Hfail. split; [now apply failure_response|].
  intros e' r' Hfail'. now rewrite !failure_response.
Qed.


(** C5. A request whose token is on record, whose scope and user id parse
    and whose user is found, but whose account status is not [Active], is
    answered 401 and no document is served. *)
Theorem UserInfo_inactive_account e r info scoped segments id user :
  HasPrefix (authorization r) "Bearer " = true ->
  GetByAccess (tokenStore e) (Context_ r) (bearer r) = (Some info, None) ->
  parseScope X (GetScope info) = (scoped, segments, None) ->
  uuid_FromString X (GetUserID info) = (id, None) ->
  GetUser (service e) (Context_ r) id = (user, None) ->
  User_Status user <> Active X ->
  response (trace (Endpoint_UserInfo X e r)) = [http_Error "" StatusUnauthorized]
  /\ forall r' name modtime content,
       ~ In (http_ServeContent r' name modtime content)
            (trace (Endpoint_UserInfo X e r)).
Proof.
  intros Hp Hget Hscope Hid Huser Hstatus.
  assert (Hfail : UserInfoFailure X e r).
  { eapply TokenRejected; [eassumption..|]. eapply AccountNotActive; eassumption. }
  apply failure_response in Hfail. split; [assumption|].
  intros r' name modtime content Hin.
  assert (Hin' : In (http_ServeContent r' name modtime content)
                   (response (trace (Endpoint_UserInfo X e r))))
    by (apply filter_In; now split).
  rewrite Hfail in Hin'. destruct Hin' as [Heq|[]]. discriminate Heq.
Qed.

(** C7. A header value that does not start with [Bearer ] (compared byte
    for byte) is answered 401 and the token store is not called.  For a
    header [Bearer ] followed by [token], the first call is
    [GetByAccess(ctx, token)]; when the store answers with an error or with
    no record (a token that is absent, or that the store reports expired)
    the reply is 401 and nothing else is called. *)
Theorem UserInfo_bearer_token e r :
  (HasPrefix (authorization r) "Bearer " = false ->
   trace (Endpoint_UserInfo X e r) = [http_Error "" StatusUnauthorized])
  /\ forall token,
       authorization r = "Bearer " ++ token ->
       (exists rest,
          trace (Endpoint_UserInfo X e r)
          = TokenStore_GetByAccess (Context_ r) token :: rest)
       /\ forall oinfo err,
            GetByAccess (tokenStore e) (Context_ r) token = (oinfo, err) ->
            err <> None \/ oinfo = None ->
            trace (Endpoint_UserInfo X e r)
            = [TokenStore_GetByAccess (Context_ r) token;
               http_Error "" StatusUnauthorized].
Proof.
  split; [apply trace_no_prefix|].
  intros token Hauth.
  assert (Hp : HasPrefix (authorization r) "Bearer " = true)
    by (rewrite Hauth; apply HasPrefix_app).
  assert (Htok : bearer r = token)
    by (rewrite Hauth; apply TrimPrefix_app).
  split.
  - destruct (trace_lookup_first e r Hp) as [rest Hrest].
    exists rest. now rewrite <- Htok.
  - intros oinfo err Hget Hbad. rewrite <- Htok in *.
    now apply (trace_token_missing e r oinfo err).
Qed.

(** C10 (amended). A request whose Authorization header is exactly
    [Bearer ] passes the prefix check and the empty string is looked up in
    the token store.  When the lookup returns an error or no record the
    request is answered 401 at once; when it returns a record, a 401 comes
    from one of the later checks on that record. *)
Theorem UserInfo_empty_token e r :
  authorization r = "Bearer " ->
  HasPrefix (authorization r) "Bearer " = true
  /\ (exists rest,
        trace (Endpoint_UserInfo X e r)
        = TokenStore_GetByAccess (Context_ r) "" :: rest)
  /\ (forall oinfo err,
        GetByAccess (tokenStore e) (Context_ r) "" = (oinfo, err) ->
        err <> None \/ oinfo = None ->
        trace (Endpoint_UserInfo X e r)
        = [TokenStore_GetByAccess (Context_ r) ""; http_Error "" StatusUnauthorized])
  /\ (forall info,
        GetByAccess (tokenStore e) (Context_ r) "" = (Some info, None) ->
        In (http_Error "" StatusUnauthorized) (trace (Endpoint_UserInfo X e r)) ->
        Rejected X e (Context_ r) info).
Proof.
  intros Hauth.
  assert (Hp : HasPrefix (authorization r) "Bearer " = true) by now rewrite Hauth.
  assert (Htok : bearer r = "") by now rewrite Hauth.
  split; [assumption|]. split; [|split].
  - destruct (trace_lookup_first e r Hp) as [rest Hrest].
    exists rest. now rewrite <- Htok.
  - intros oinfo err Hget Hbad. rewrite <- Htok in Hget.
    rewrite (trace_token_missing e r oinfo err Hp Hget Hbad). now rewrite Htok.
  - intros info Hget Hin. rewrite <- Htok in Hget.
    destruct (rejected_or_accepted e (Context_ r) info)
      as [Hrej|(scoped & user & Hacc)]; [assumption|].
    destruct (trace_accepted e r info scoped user Hp Hget Hacc) as (id & _ & Htrace).
    rewrite Htrace in Hin.
    destruct Hin as [Heq|[Heq|[Heq|[]]]]; try discriminate Heq.
    now apply served_not_unauthorized in Heq.
Qed.

(** ** The handlers in front of the protocol engine *)



(** ** Construction *)


(** C8. For an endpoint built by [NewEndpoint], for every request, the
    discovery handler hands the encoder the four fields [issuer],
    [authorization_endpoint], [token_endpoint] and [userinfo_endpoint], in
    that order and no other, the first being the external address and the
    others the address followed by the route; it serves the encoded bytes
    with [http.ServeContent], or answers 500 with an empty error text when
    the encoder fails. *)
Theorem WellKnownConfiguration_document
    (externalAddress : string) (oidcService : Service Ctx ClientStore)
    (service : ConsoleService UUID Ctx UserStatus)
    (codeExpiry accessTokenExpiry refreshTokenExpiry : Duration) r :
  ProviderConfig_fields (UUID := UUID)
    (config (NewEndpoint X externalAddress oidcService service
               codeExpiry accessTokenExpiry refreshTokenExpiry))
  = [ ("issuer", VString externalAddress);
      ("authorization_endpoint", VString (externalAddress ++ "oauth/v2/authorize"));
      ("token_endpoint", VString (externalAddress ++ "oauth/v2/tokens"));
      ("userinfo_endpoint", VString (externalAddress ++ "oauth/v2/userinfo")) ]
  /\ (forall data,
        json_Marshal X
          (ProviderConfig_fields
             (config (NewEndpoint X externalAddress oidcService service
                        codeExpiry accessTokenExpiry refreshTokenExpiry)))
        = (data, None) ->
        trace (WellKnownConfiguration X
                 (NewEndpoint X externalAddress oidcService service
                    codeExpiry accessTokenExpiry refreshTokenExpiry) r)
        = [http_ServeContent r "" (time_Now X) data])
  /\ (forall data err,
        json_Marshal X
          (ProviderConfig_fields
             (config (NewEndpoint X externalAddress oidcService service
                        codeExpiry accessTokenExpiry refreshTokenExpiry)))
        = (data, Some err) ->
        trace (WellKnownConfiguration X
                 (NewEndpoint X externalAddress oidcService service
                    codeExpiry accessTokenExpiry refreshTokenExpiry) r)
        = [http_Error "" StatusInternalServerError]).
Proof.
  split; [reflexivity|].
  split; [intros data Hjson|intros data err Hjson];
    unfold WellKnownConfiguration; now rewrite Hjson.
Qed.

(** ** Further properties of the user-info handler *)

Lemma trace_rejected_calls e r info :
  HasPrefix (authorization r) "Bearer " = true ->
  GetByAccess (tokenStore e) (Context_ r) (bearer r) = (Some info, None) ->
  Rejected X e (Context_ r) info ->
  trace (Endpoint_UserInfo X e r)
  = [TokenStore_GetByAccess (Context_ r) (bearer r); Unauthorized]
  \/ exists scoped segments id,
       parseScope X (GetScope info) = (scoped, segments, None)
       /\ uuid_FromString X (GetUserID info) = (id, None)
       /\ trace (Endpoint_UserInfo X e r)
          = [TokenStore_GetByAccess (Context_ r) (bearer r);
             Service_GetUser (Context_ r) id; Unauthorized].
Proof.
  intros Hp Hget [scoped segments err Hscope
                 |scoped segments id err Hscope Hid
                 |scoped segments id user err Hscope Hid Huser
                 |scoped segments id user Hscope Hid Huser Hstatus].
  - left. run. answer Hp. answer Hget. now answer Hscope.
  - left. run. answer Hp. answer Hget. answer Hscope. now answer Hid.
  - right. exists scoped, segments, id. repeat split; try assumption.
    run. answer Hp. answer Hget. answer Hscope. answer Hid. now answer Huser.
  - right. exists scoped, segments, id. repeat split; try assumption.
    run. answer Hp. answer Hget. answer Hscope. answer Hid. answer Huser.
    now rewrite bool_decide_eq_false_2.
Qed.

(** The shape of every trace of the handler: the token is looked up first,
    the user second, the reply comes last. *)
Lemma UserInfo_trace_shape e r :
  (HasPrefix (authorization r) "Bearer " = false
   /\ trace (Endpoint_UserInfo X e r) = [Unauthorized])
  \/ (HasPrefix (authorization r) "Bearer " = true
      /\ trace (Endpoint_UserInfo X e r)
         = [TokenStore_GetByAccess (Context_ r) (bearer r); Unauthorized])
  \/ (HasPrefix (authorization r) "Bearer " = true
      /\ exists info scoped segments id reply,
           GetByAccess (tokenStore e) (Context_ r) (bearer r) = (Some info, None)
           /\ parseScope X (GetScope info) = (scoped, segments, None)
           /\ uuid_FromString X (GetUserID info) = (id, None)
           /\ is_write reply = true
           /\ is_store_lookup reply = false
           /\ is_user_lookup reply = false
           /\ trace (Endpoint_UserInfo X e r)
              = [TokenStore_GetByAccess (Context_ r) (bearer r);
                 Service_GetUser (Context_ r) id; reply]).
Proof.
  destruct (UserInfo_cases e r)
    as [[Hp|oinfo err Hp Hget Hbad|info Hp Hget Hrej]
       |(info & scoped & user & Hp & Hget & Hacc)].
  - left. split; [assumption|]. now apply trace_no_prefix.
  - right. left. split; [assumption|].
    now apply (trace_token_missing e r oinfo err).
  - destruct (trace_rejected_calls e r info Hp Hget Hrej)
      as [Htrace|(scoped & segments & id & Hscope & Hid & Htrace)].
    + right. left. now split.
    + right. right. split; [assumption|].
      exists info, scoped, segments, id, Unauthorized. now repeat split.
  - destruct (trace_accepted e r info scoped user Hp Hget Hacc) as (id & Hid & Htrace).
    destruct Hacc as [segments id' Hscope _ _ _].
    right. right. split; [assumption|].
    exists info, scoped, segments, id, (served X r (fill_standard_claims scoped user)).
    repeat split; try assumption;
      unfold served; now destruct (json_Marshal X _) as [data [err|]].
Qed.

(** X1. Every user-info request is answered exactly once, and the reply is
    the last thing the handler does: before it the handler made no call, or
    one lookup in the token store, or that lookup followed by one lookup of
    the user.  The protocol engine is never called. *)
Theorem UserInfo_single_reply e r :
  exists calls reply,
    trace (Endpoint_UserInfo X e r) = (calls ++ [reply])%list
    /\ is_write reply = true
    /\ response (trace (Endpoint_UserInfo X e r)) = [reply]
    /\ (calls = []
        \/ calls = [TokenStore_GetByAccess (Context_ r) (bearer r)]
        \/ exists id,
             calls = [TokenStore_GetByAccess (Context_ r) (bearer r);
                      Service_GetUser (Context_ r) id]).
Proof.
  destruct (UserInfo_trace_shape e r)
    as [[_ Htrace]|[[_ Htrace]
       |[_ (info & scoped & segments & id & reply & _ & _ & _ & Hw & _ & _ & Htrace)]]].
  - exists [], Unauthorized. rewrite Htrace. repeat split; try reflexivity. now left.
  - exists [TokenStore_GetByAccess (Context_ r) (bearer r)], Unauthorized.
    rewrite Htrace. repeat split; try reflexivity. right. now left.
  - exists [TokenStore_GetByAccess (Context_ r) (bearer r);
            Service_GetUser (Context_ r) id], reply.
    rewrite Htrace. repeat split; try assumption; try reflexivity.
    + unfold response. cbn. now rewrite Hw.
    + right. right. now exists id.
Qed.

(** X2. The reply is [http.Error(w, "", 401)] for the listed failures and
    for nothing else: a request that is answered 401 has no [Bearer ]
    prefix, or its token was not found, or the record of its token was
    turned down by one of the four later checks. *)
Theorem UserInfo_unauthorized_iff e r :
  response (trace (Endpoint_UserInfo X e r)) = [http_Error "" StatusUnauthorized]
  <-> UserInfoFailure X e r.
Proof.
  split; [|apply failure_response].
  intros Hreply.
  destruct (UserInfo_cases e r)
    as [Hfail|(info & scoped & user & Hp & Hget & Hacc)]; [assumption|].
  destruct (trace_accepted e r info scoped user Hp Hget Hacc) as (id & _ & Htrace).
  rewrite Htrace in Hreply. cbn in Hreply.
  assert (Hw : is_write (served X r (fill_standard_claims scoped user)) = true)
    by (unfold served; now destruct (json_Marshal X _) as [data [err|]]).
  rewrite Hw in Hreply. injection Hreply as Hserved.
  now apply served_not_unauthorized in Hserved.
Qed.

(** X3. The handler serves [content] exactly when the header starts with
    [Bearer ], the store has a record for the rest of the header, that
    record passes every check, and [json.Marshal] of the resulting document
    returns [content] without error; the served reply carries the request,
    the empty name and the current time. *)
Theorem UserInfo_served_iff e r content :
  response (trace (Endpoint_UserInfo X e r))
  = [http_ServeContent r "" (time_Now X) content]
  <-> exists info scoped user,
        HasPrefix (authorization r) "Bearer " = true
        /\ GetByAccess (tokenStore e) (Context_ r) (bearer r) = (Some info, None)
        /\ Accepted X e (Context_ r) info scoped user
        /\ json_Marshal X (UserInfo_fields (fill_standard_claims scoped user))
           = (content, None).
Proof.
  split.
  - intros Hreply.
    destruct (UserInfo_cases e r)
      as [Hfail|(info & scoped & user & Hp & Hget & Hacc)].
    + apply failure_response in Hfail. rewrite Hfail in Hreply. discriminate Hreply.
    + exists info, scoped, user. repeat split; try assumption.
      destruct (trace_accepted e r info scoped user Hp Hget Hacc) as (id & _ & Htrace).
      rewrite Htrace in Hreply. cbn in Hreply. unfold served in Hreply.
      destruct (json_Marshal X _) as [data [err|]]; cbn in Hreply;
        [discriminate Hreply|].
      now injection Hreply as ->.
  - intros (info & scoped & user & Hp & Hget & Hacc & Hjson).
    destruct (trace_accepted e r info scoped user Hp Hget Hacc) as (id & _ & Htrace).
    rewrite Htrace. cbn. unfold served. now rewrite Hjson.
Qed.

(** X4. The handler answers 500, with an empty error text, exactly when the
    token's record passes every check and [json.Marshal] of the document
    fails; no failure of the token, of its scope or of the account is ever
    reported as 500. *)
Theorem UserInfo_internal_error_iff e r :
  response (trace (Endpoint_UserInfo X e r))
  = [http_Error "" StatusInternalServerError]
  <-> exists info scoped user data err,
        HasPrefix (authorization r) "Bearer " = true
        /\ GetByAccess (tokenStore e) (Context_ r) (bearer r) = (Some info, None)
        /\ Accepted X e (Context_ r) info scoped user
        /\ json_Marshal X (UserInfo_fields (fill_standard_claims scoped user))
           = (data, Some err).
Proof.
  split.
  - intros Hreply.
    destruct (UserInfo_cases e r)
      as [Hfail|(info & scoped & user & Hp & Hget & Hacc)].
    + apply failure_response in Hfail. rewrite Hfail in Hreply. discriminate Hreply.
    + destruct (trace_accepted e r info scoped user Hp Hget Hacc) as (id & _ & Htrace).
      rewrite Htrace in Hreply. cbn in Hreply. unfold served in Hreply.
      destruct (json_Marshal X _) as [data [err|]] eqn:Hjson; cbn in Hreply;
        [|discriminate Hreply].
      exists info, scoped, user, data, err. now repeat split.
  - intros (info & scoped & user & data & err & Hp & Hget & Hacc & Hjson).
    destruct (trace_accepted e r info scoped user Hp Hget Hacc) as (id & _ & Htrace).
    rewrite Htrace. cbn. unfold served. now rewrite Hjson.
Qed.

(** X5. The console service is asked for a user only on behalf of a token
    that the store returned without error and whose scope and user id both
    parsed; the user asked for is the one that user id parses to, in the
    context of the request; and it is asked at most once. *)
Theorem UserInfo_user_lookup_guarded e r (ctx : Ctx) (id : UUID) :
  In (Service_GetUser ctx id) (trace (Endpoint_UserInfo X e r)) ->
  ctx = Context_ r
  /\ length (List.filter is_user_lookup (trace (Endpoint_UserInfo X e r))) = 1
  /\ exists info scoped segments,
       HasPrefix (authorization r) "Bearer " = true
       /\ GetByAccess (tokenStore e) (Context_ r) (bearer r) = (Some info, None)
       /\ parseScope X (GetScope info) = (scoped, segments, None)
       /\ uuid_FromString X (GetUserID info) = (id, None).
Proof.
  intros Hin.
  destruct (UserInfo_trace_shape e r)
    as [[_ Htrace]|[[_ Htrace]
       |[Hp (info & scoped & segments & id' & reply
              & Hget & Hscope & Hid & _ & _ & Hnu & Htrace)]]];
    rewrite Htrace in Hin |- *.
  - destruct Hin as [Heq|[]]. discriminate Heq.
  - destruct Hin as [Heq|[Heq|[]]]; discriminate Heq.
  - destruct Hin as [Heq|[Heq|[Heq|[]]]]; [discriminate Heq| |].
    + injection Heq as <- <-. split; [reflexivity|]. split.
      * cbn. now rewrite Hnu.
      * now exists info, scoped, segments.
    + rewrite Heq in Hnu. discriminate Hnu.
Qed.

(** X6. The token store is consulted only for a header that starts with
    [Bearer ], in the context of the request, with exactly the rest of the
    header as access token (nothing trimmed, nothing decoded), and at most
    once per request. *)
Theorem UserInfo_store_lookup_guarded e r (ctx : Ctx) (access : string) :
  In (TokenStore_GetByAccess ctx access) (trace (Endpoint_UserInfo X e r)) ->
  ctx = Context_ r
  /\ authorization r = "Bearer " ++ access
  /\ length (List.filter is_store_lookup (trace (Endpoint_UserInfo X e r))) = 1.
Proof.
  intros Hin.
  destruct (UserInfo_trace_shape e r)
    as [[_ Htrace]|[[Hp Htrace]
       |[Hp (info & scoped & segments & id & reply
              & _ & _ & _ & _ & Hns & _ & Htrace)]]];
    rewrite Htrace in Hin |- *.
  - destruct Hin as [Heq|[]]. discriminate Heq.
  - destruct Hin as [Heq|[Heq|[]]]; [|discriminate Heq].
    injection Heq as <- <-. split; [reflexivity|]. split; [|reflexivity].
    now apply HasPrefix_split.
  - destruct Hin as [Heq|[Heq|[Heq|[]]]]; [|discriminate Heq|].
    + injection Heq as <- <-. split; [reflexivity|]. split.
      * now apply HasPrefix_split.
      * cbn. now rewrite Hns.
    + rewrite Heq in Hns. discriminate Hns.
Qed.

(** ** Further properties of the handlers in front of the engine *)


(** ** Further properties of the construction *)

(** X8. [NewEndpoint] installs a user authorization handler on the engine,
    and that handler never returns a user id for a request without a
    session: when [console.GetAuth] fails it returns the empty id and the
    error wrapped by [console.ErrUnauthorized]; when it succeeds it returns
    the text of the session user's id and no error. *)
Theorem NewEndpoint_authorization_handler
    (externalAddress : string) (oidcService : Service Ctx ClientStore)
    (service : ConsoleService UUID Ctx UserStatus)
    (codeExpiry accessTokenExpiry refreshTokenExpiry : Duration) :
  exists handler,
    UserAuthorizationHandler
      (server (NewEndpoint X externalAddress oidcService service
                 codeExpiry accessTokenExpiry refreshTokenExpiry))
    = Some handler
    /\ forall r,
         (snd (handler r) = None <-> snd (console_GetAuth X (Context_ r)) = None)
         /\ (forall err,
               snd (console_GetAuth X (Context_ r)) = Some err ->
               handler r = ("", Some (ErrUnauthorized_Wrap X err)))
         /\ (snd (console_GetAuth X (Context_ r)) = None ->
             handler r
             = (uuid_String X
                  (User_ID (Auth_User (fst (console_GetAuth X (Context_ r))))),
                None)).
Proof.
  eexists. split; [reflexivity|]. intros r. cbn beta.
  destruct (console_GetAuth X (Context_ r)) as [auth [err|]]; cbn [fst snd].
  - repeat split; try easy. now intros err' [= ->].
  - repeat split; easy.
Qed.

(** X9. End to end through [NewEndpoint]: the endpoint resolves tokens in
    the token store of the oidc service it was built over and users in the
    console service it was given.  A request [Bearer token] whose token is
    on record there, whose scope and user id parse, whose user is found and
    active and whose document encodes, is served that document after
    exactly those two lookups. *)
Theorem NewEndpoint_UserInfo_served
    (externalAddress : string) (oidcService : Service Ctx ClientStore)
    (service : ConsoleService UUID Ctx UserStatus)
    (codeExpiry accessTokenExpiry refreshTokenExpiry : Duration)
    r token info scoped segments id user content :
  authorization r = "Bearer " ++ token ->
  GetByAccess (Service_TokenStore oidcService) (Context_ r) token = (Some info, None) ->
  parseScope X (GetScope info) = (scoped, segments, None) ->
  uuid_FromString X (GetUserID info) = (id, None) ->
  GetUser service (Context_ r) id = (user, None) ->
  User_Status user = Active X ->
  json_Marshal X (UserInfo_fields (fill_standard_claims scoped user)) = (content, None) ->
  trace (Endpoint_UserInfo X
           (NewEndpoint X externalAddress oidcService service
              codeExpiry accessTokenExpiry refreshTokenExpiry) r)
  = [TokenStore_GetByAccess (Context_ r) token;
     Service_GetUser (Context_ r) id;
     http_ServeContent r "" (time_Now X) content].
Proof.
  intros Hauth Hget Hscope Hid Huser Hstatus Hjson.
  set (e := NewEndpoint X externalAddress oidcService service
              codeExpiry accessTokenExpiry refreshTokenExpiry).
  assert (Hp : HasPrefix (authorization r) "Bearer " = true)
    by (rewrite Hauth; apply HasPrefix_app).
  assert (Htok : bearer r = token) by (rewrite Hauth; apply TrimPrefix_app).
  assert (Hget' : GetByAccess (tokenStore e) (Context_ r) (bearer r) = (Some info, None))
    by (rewrite Htok; exact Hget).
  assert (Hacc : Accepted X e (Context_ r) info scoped user)
    by (eapply AccountActive; eassumption).
  destruct (trace_accepted e r info scoped user Hp Hget' Hacc) as (id' & Hid' & Htrace).
  assert (id' = id) as -> by congruence.
  rewrite Htrace, Htok. unfold served. now rewrite Hjson.
Qed.

(** X10. Whatever the external address -- empty, or without the trailing
    slash it should have -- the advertised endpoints are the issuer followed
    by the fixed routes, with no separator added or removed, and the three
    endpoints differ from one another. *)
Theorem NewEndpoint_discovery_urls
    (externalAddress : string) (oidcService : Service Ctx ClientStore)
    (service : ConsoleService UUID Ctx UserStatus)
    (codeExpiry accessTokenExpiry refreshTokenExpiry : Duration) :
  let c := config (NewEndpoint X externalAddress oidcService service
                     codeExpiry accessTokenExpiry refreshTokenExpiry) in
  Issuer c = externalAddress
  /\ HasPrefix (AuthURL c) (Issuer c) = true
  /\ HasPrefix (TokenURL c) (Issuer c) = true
  /\ HasPrefix (UserInfoURL c) (Issuer c) = true
  /\ TrimPrefix (AuthURL c) (Issuer c) = "oauth/v2/authorize"
  /\ TrimPrefix (TokenURL c) (Issuer c) = "oauth/v2/tokens"
  /\ TrimPrefix (UserInfoURL c) (Issuer c) = "oauth/v2/userinfo"
  /\ AuthURL c <> TokenURL c
  /\ AuthURL c <> UserInfoURL c
  /\ TokenURL c <> UserInfoURL c.
Proof.
  cbn [NewEndpoint config Issuer AuthURL TokenURL UserInfoURL].
  assert (Hna : forall p t1 t2 : string, t1 <> t2 -> p ++ t1 <> p ++ t2).
  { intros p t1 t2 Hne Heq. apply Hne.
    now rewrite <- (TrimPrefix_app p t1), <- (TrimPrefix_app p t2), Heq. }
  repeat split;
    try apply HasPrefix_app; try apply TrimPrefix_app;
    apply Hna; discriminate.
Qed.

(** X11. The discovery handler makes one call, on the response writer; it
    consults neither the token store, nor the console service, nor the
    engine.  What it hands to [http.ServeContent] as content (or the 500 it
    answers when encoding fails) is the same for every request; the request
    itself is passed along to [http.ServeContent]. *)
Theorem WellKnownConfiguration_static e r1 r2 :
  (exists reply,
     trace (WellKnownConfiguration X e r1) = [reply] /\ is_write reply = true)
  /\ (forall data,
        trace (WellKnownConfiguration X e r1)
        = [http_ServeContent r1 "" (time_Now X) data] ->
        trace (WellKnownConfiguration X e r2)
        = [http_ServeContent r2 "" (time_Now X) data])
  /\ (trace (WellKnownConfiguration X e r1)
      = [http_Error "" StatusInternalServerError] ->
      trace (WellKnownConfiguration X e r2)
      = [http_Error "" StatusInternalServerError]).
Proof.
  unfold WellKnownConfiguration.
  destruct (json_Marshal X (ProviderConfig_fields (config e))) as [data [err|]];
    cbn [is_err]; repeat split.
  - eexists. now split.
  - intros data' [=].
  - eexists. now split.
  - now intros data' [= ->].
  - intros [=].
Qed.

End EndpointProperties.

(* ===================================================================== *)
(** * Properties of the overlay inspector *)
(* ===================================================================== *)

Section InspectorProperties.
Context {Ctx CountNodesRequest : Type}.

Lemma int64_small (z : Z) : (- 2 ^ 63 <= z < 2 ^ 63)%Z -> int64 z = z.
Proof. intros Hz. unfold int64. rewrite Z.mod_small; lia. Qed.

(** C9. [CountNodes] answers with the number of keys that [Inspect]
    reports (a slice length, which fits an [int64]) and no error when
    [Inspect] succeeds, and with no response and the error of [Inspect]
    when it fails; the response is nil exactly when [Inspect] returned an
    error. *)
Theorem CountNodes_counts_keys
    (srv : Overlay.Inspector Ctx) (ctx : Ctx) (req : CountNodesRequest)
    (overlayKeys : Overlay.Keys) (err : option error) :
  Overlay.Inspect (Overlay.service srv) ctx = (overlayKeys, err) ->
  (len overlayKeys < 2 ^ 63)%Z ->
  (err = None ->
   Overlay.CountNodes srv ctx req
   = (Some {| Overlay.Count := Z.of_nat (length overlayKeys) |}, None))
  /\ (forall failure,
        err = Some failure ->
        Overlay.CountNodes srv ctx req = (None, Some failure))
  /\ (fst (Overlay.CountNodes srv ctx req) = None <-> err <> None)
  /\ snd (Overlay.CountNodes srv ctx req) = err.
Proof.
  intros Hinspect Hlen. unfold Overlay.CountNodes. rewrite Hinspect.
  destruct err as [failure|].
  - repeat split; try easy. now intros failure' [= ->].
  - rewrite int64_small by (unfold len in *; lia).
    repeat split; easy.
Qed.

(** X12. An inspector built by [NewInspector] counts the keys of the
    service it was built over: when [Inspect] succeeds the count is never
    negative, and it is zero exactly when the overlay reports no key. *)
Theorem CountNodes_empty_overlay
    (service : Overlay.Service Ctx) (ctx : Ctx) (req : CountNodesRequest)
    (overlayKeys : Overlay.Keys) :
  Overlay.Inspect service ctx = (overlayKeys, None) ->
  (len overlayKeys < 2 ^ 63)%Z ->
  exists resp,
    Overlay.CountNodes (Overlay.NewInspector service) ctx req = (Some resp, None)
    /\ (0 <= Overlay.Count resp)%Z
    /\ (Overlay.Count resp = 0%Z <-> overlayKeys = []).
Proof.
  intros Hinspect Hlen. unfold Overlay.CountNodes, Overlay.NewInspector.
  cbn [Overlay.service]. rewrite Hinspect.
  eexists. split; [reflexivity|]. cbn [Overlay.Count].
  rewrite int64_small by (unfold len in *; lia). unfold len.
  split; [lia|]. split.
  - intros Hzero. destruct overlayKeys; [reflexivity|discriminate Hzero].
  - now intros ->.
Qed.

End InspectorProperties.

(* ===================================================================== *)
(** * The sample deployment, request by request *)
(* ===================================================================== *)

(** A closed account ([Bearer A2] resolves to [bob]) is a failing request
    and gets the bare 401. *)
Lemma UserInfo_failure_unauthorized_witness :
  UserInfoFailure Sample.externals Sample.endpoint (Sample.bearing "Bearer A2")
  /\ response (trace (Endpoint_UserInfo Sample.externals Sample.endpoint
                        (Sample.bearing "Bearer A2")))
     = [http_Error "" StatusUnauthorized].
Proof.
  assert (Hfail : UserInfoFailure Sample.externals Sample.endpoint
                    (Sample.bearing "Bearer A2")).
  { apply TokenRejected with (info := {| GetScope := "grant"; GetUserID := "u2" |});
      [vm_compute; reflexivity | vm_compute; reflexivity |].
    apply AccountNotActive
      with (scoped := Sample.granted) (segments := ["grant"]) (id := 2%nat)
           (user := Sample.bob);
      [reflexivity | reflexivity | reflexivity | simpl; lia]. }
  split; [exact Hfail|].
  exact (proj1 (UserInfo_failure_unauthorized Sample.externals
                  Sample.endpoint (Sample.bearing "Bearer A2") Hfail)).
Defined.


Lemma UserInfo_inactive_account_witness :
  User_Status Sample.bob <> Active Sample.externals
  /\ response (trace (Endpoint_UserInfo Sample.externals Sample.endpoint
                        (Sample.bearing "Bearer A2")))
     = [http_Error "" StatusUnauthorized]
  /\ forall r' name modtime content,
       ~ In (http_ServeContent r' name modtime content)
            (trace (Endpoint_UserInfo Sample.externals Sample.endpoint
                      (Sample.bearing "Bearer A2"))).
Proof.
  assert (Hstatus : User_Status Sample.bob <> Active Sample.externals)
    by (simpl; lia).
  split; [exact Hstatus|].
  apply (UserInfo_inactive_account Sample.externals Sample.endpoint
           (Sample.bearing "Bearer A2")
           {| GetScope := "grant"; GetUserID := "u2" |}
           Sample.granted ["grant"] 2%nat Sample.bob);
    [vm_compute; reflexivity | vm_compute; reflexivity
    | reflexivity | reflexivity | reflexivity | exact Hstatus].
Defined.

(** A lower-case scheme never reaches the store; an expired token is looked
    up under the text after [Bearer ] and refused. *)
Lemma UserInfo_bearer_token_witness :
  trace (Endpoint_UserInfo Sample.externals Sample.endpoint
           (Sample.bearing "bearer A1"))
  = [http_Error "" StatusUnauthorized]
  /\ trace (Endpoint_UserInfo Sample.externals Sample.endpoint
              (Sample.bearing "Bearer old"))
     = [TokenStore_GetByAccess tt "old"; http_Error "" StatusUnauthorized].
Proof.
  split.
  - apply (proj1 (UserInfo_bearer_token Sample.externals Sample.endpoint
                    (Sample.bearing "bearer A1"))).
    vm_compute; reflexivity.
  - apply (proj2 (proj2 (UserInfo_bearer_token Sample.externals Sample.endpoint
                           (Sample.bearing "Bearer old"))
                    "old" ltac:(vm_compute; reflexivity))
             None (Some {| Error := "token expired" |}));
      [reflexivity | left; discriminate].
Defined.

(** C10, as stated, fails: the sample store has a record under the empty
    access token, its scope does not parse, and the request is answered 401
    although the lookup returned a record and no error. *)
Lemma UserInfo_empty_token_counterexample :
  authorization (Sample.bearing "Bearer ") = "Bearer "
  /\ GetByAccess (tokenStore Sample.endpoint) tt ""
     = (Some {| GetScope := "???"; GetUserID := "u1" |}, None)
  /\ trace (Endpoint_UserInfo Sample.externals Sample.endpoint
              (Sample.bearing "Bearer "))
     = [TokenStore_GetByAccess tt ""; http_Error "" StatusUnauthorized]
  /\ ~ (In (http_Error "" StatusUnauthorized)
           (trace (Endpoint_UserInfo Sample.externals Sample.endpoint
                     (Sample.bearing "Bearer "))) ->
        exists oinfo err,
          GetByAccess (tokenStore Sample.endpoint) tt "" = (oinfo, err)
          /\ (err <> None \/ oinfo = None)).
Proof.
  repeat split; try (vm_compute; reflexivity).
  intros Honly.
  destruct Honly as (oinfo & err & Hget & Hbad).
  - vm_compute. right. left. reflexivity.
  - injection Hget as <- <-. destruct Hbad as [Herr|Hinfo]; [now apply Herr|discriminate].
Qed.

Lemma UserInfo_empty_token_witness :
  authorization (Sample.bearing "Bearer ") = "Bearer "
  /\ (exists rest,
        trace (Endpoint_UserInfo Sample.externals Sample.endpoint
                 (Sample.bearing "Bearer "))
        = TokenStore_GetByAccess tt "" :: rest)
  /\ Rejected Sample.externals Sample.endpoint tt
       {| GetScope := "???"; GetUserID := "u1" |}.
Proof.
  assert (Hauth : authorization (Sample.bearing "Bearer ") = "Bearer ")
    by (vm_compute; reflexivity).
  destruct (UserInfo_empty_token Sample.externals Sample.endpoint
              (Sample.bearing "Bearer ") Hauth) as (_ & Hfirst & _ & Hlater).
  split; [exact Hauth|]. split; [exact Hfirst|].
  apply Hlater; [reflexivity|].
  vm_compute. right. left. reflexivity.
Defined.

(** The discovery document of the sample deployment, and the reply when the
    encoder fails. *)
Lemma WellKnownConfiguration_document_witness :
  trace (WellKnownConfiguration Sample.externals Sample.endpoint Sample.anonymous)
  = [http_ServeContent Sample.anonymous "" 1700000000%Z
       (String.list_byte_of_string
          "issuer,authorization_endpoint,token_endpoint,userinfo_endpoint")]
  /\ trace (WellKnownConfiguration Sample.externals_broken_json
              (NewEndpoint Sample.externals_broken_json "https://sat.example.test/"
                 Sample.oidcService Sample.accounts 1%Z 1%Z 1%Z)
              Sample.anonymous)
     = [http_Error "" StatusInternalServerError].
Proof.
  split.
  - exact (proj1 (proj2 (WellKnownConfiguration_document Sample.externals
                           "https://sat.example.test/" Sample.oidcService
                           Sample.accounts 600000000000%Z 3600000000000%Z 0%Z
                           Sample.anonymous)) _ eq_refl).
  - exact (proj2 (proj2 (WellKnownConfiguration_document
                           Sample.externals_broken_json
                           "https://sat.example.test/" Sample.oidcService
                           Sample.accounts 1%Z 1%Z 1%Z Sample.anonymous))
             [] {| Error := "json: unsupported value" |} eq_refl).
Defined.

Lemma CountNodes_counts_keys_witness :
  Overlay.CountNodes (CountNodesRequest := unit)
    (Overlay.NewInspector Sample.overlay_up) tt tt
  = (Some {| Overlay.Count := 3%Z |}, None)
  /\ Overlay.CountNodes (CountNodesRequest := unit)
       (Overlay.NewInspector Sample.overlay_down) tt tt
     = (None, Some {| Error := "database unavailable" |}).
Proof.
  split.
  - apply (CountNodes_counts_keys (Overlay.NewInspector Sample.overlay_up) tt tt
             Sample.keys3 None); [reflexivity | vm_compute; reflexivity | reflexivity].
  - apply (CountNodes_counts_keys (Overlay.NewInspector Sample.overlay_down) tt tt
             [] (Some {| Error := "database unavailable" |}));
      [reflexivity | vm_compute; reflexivity | reflexivity].
Defined.


(* ===================================================================== *)
(** * More requests to the sample deployment *)
(* ===================================================================== *)

(** With an encoder that fails, the valid token [A1] is answered 500. *)
Lemma UserInfo_internal_error_iff_witness :
  response (trace (Endpoint_UserInfo Sample.externals_broken_json Sample.endpoint
                     (Sample.bearing "Bearer A1")))
  = [http_Error "" StatusInternalServerError].
Proof.
  apply (proj2 (UserInfo_internal_error_iff Sample.externals_broken_json
                  Sample.endpoint (Sample.bearing "Bearer A1"))).
  exists {| GetScope := "grant"; GetUserID := "u1" |}, Sample.granted, Sample.alice,
    [], {| Error := "json: unsupported value" |}.
  split; [vm_compute; reflexivity|]. split; [vm_compute; reflexivity|].
  split; [|reflexivity].
  apply AccountActive with (segments := ["grant"]) (id := 1%nat); reflexivity.
Defined.

(** The valid token [A1] is served the encoding of alice's document. *)
Lemma UserInfo_served_iff_witness :
  response (trace (Endpoint_UserInfo Sample.externals Sample.endpoint
                     (Sample.bearing "Bearer A1")))
  = [http_ServeContent (Sample.bearing "Bearer A1") "" 1700000000%Z
       (String.list_byte_of_string
          "sub,email,email_verified,project,buckets,cubbyhole")].
Proof.
  apply (proj2 (UserInfo_served_iff Sample.externals Sample.endpoint
                  (Sample.bearing "Bearer A1") _)).
  exists {| GetScope := "grant"; GetUserID := "u1" |}, Sample.granted, Sample.alice.
  split; [vm_compute; reflexivity|]. split; [vm_compute; reflexivity|].
  split; [|reflexivity].
  apply AccountActive with (segments := ["grant"]) (id := 1%nat); reflexivity.
Defined.

(** Bob's account is looked up once, under the id his token parses to. *)
Lemma UserInfo_user_lookup_guarded_witness :
  In (Service_GetUser tt 2%nat)
     (trace (Endpoint_UserInfo Sample.externals Sample.endpoint
               (Sample.bearing "Bearer A2")))
  /\ exists info scoped segments,
       HasPrefix (authorization (Sample.bearing "Bearer A2")) "Bearer " = true
       /\ GetByAccess (tokenStore Sample.endpoint) tt
            (TrimPrefix (authorization (Sample.bearing "Bearer A2")) "Bearer ")
          = (Some info, None)
       /\ parseScope Sample.externals (GetScope info) = (scoped, segments, None)
       /\ uuid_FromString Sample.externals (GetUserID info) = (2%nat, None).
Proof.
  assert (Hin : In (Service_GetUser tt 2%nat)
                   (trace (Endpoint_UserInfo Sample.externals Sample.endpoint
                             (Sample.bearing "Bearer A2"))))
    by (vm_compute; right; left; reflexivity).
  split; [exact Hin|].
  exact (proj2 (proj2 (UserInfo_user_lookup_guarded Sample.externals
                         Sample.endpoint (Sample.bearing "Bearer A2") tt 2%nat Hin))).
Defined.

(** The expired token is looked up under the text after the prefix. *)
Lemma UserInfo_store_lookup_guarded_witness :
  In (TokenStore_GetByAccess tt "old")
     (trace (Endpoint_UserInfo Sample.externals Sample.endpoint
               (Sample.bearing "Bearer old")))
  /\ authorization (Sample.bearing "Bearer old") = "Bearer " ++ "old"
  /\ length (List.filter is_store_lookup
               (trace (Endpoint_UserInfo Sample.externals Sample.endpoint
                         (Sample.bearing "Bearer old")))) = 1.
Proof.
  assert (Hin : In (TokenStore_GetByAccess tt "old")
                   (trace (Endpoint_UserInfo Sample.externals Sample.endpoint
                             (Sample.bearing "Bearer old"))))
    by (vm_compute; left; reflexivity).
  split; [exact Hin|].
  exact (proj2 (UserInfo_store_lookup_guarded Sample.externals Sample.endpoint
                  (Sample.bearing "Bearer old") tt "old" Hin)).
Defined.

(** Alice's token, through an endpoint built by [NewEndpoint]. *)
Lemma NewEndpoint_UserInfo_served_witness :
  trace (Endpoint_UserInfo Sample.externals
           (NewEndpoint Sample.externals "https://sat.example.test/"
              Sample.oidcService Sample.accounts
              600000000000%Z 3600000000000%Z 0%Z)
           (Sample.bearing "Bearer A1"))
  = [TokenStore_GetByAccess tt "A1";
     Service_GetUser tt 1%nat;
     http_ServeContent (Sample.bearing "Bearer A1") "" 1700000000%Z
       (String.list_byte_of_string
          "sub,email,email_verified,project,buckets,cubbyhole")].
Proof.
  apply (NewEndpoint_UserInfo_served Sample.externals
           "https://sat.example.test/" Sample.oidcService Sample.accounts
           600000000000%Z 3600000000000%Z 0%Z
           (Sample.bearing "Bearer A1") "A1"
           {| GetScope := "grant"; GetUserID := "u1" |}
           Sample.granted ["grant"] 1%nat Sample.alice);
    [vm_compute; reflexivity | reflexivity | reflexivity | reflexivity
    | reflexivity | reflexivity | reflexivity].
Defined.

(** An overlay without nodes counts zero; one with three keys does not. *)
Lemma CountNodes_empty_overlay_witness :
  (exists resp,
     Overlay.CountNodes (CountNodesRequest := unit)
       (Overlay.NewInspector Sample.overlay_empty) tt tt = (Some resp, None)
     /\ (0 <= Overlay.Count resp)%Z
     /\ (Overlay.Count resp = 0%Z <-> @nil (list byte) = []))
  /\ (exists resp,
        Overlay.CountNodes (CountNodesRequest := unit)
          (Overlay.NewInspector Sample.overlay_up) tt tt = (Some resp, None)
        /\ (0 <= Overlay.Count resp)%Z
        /\ (Overlay.Count resp = 0%Z <-> Sample.keys3 = [])).
Proof.
  split.
  - apply (CountNodes_empty_overlay Sample.overlay_empty tt tt []);
      [reflexivity | vm_compute; reflexivity].
  - apply (CountNodes_empty_overlay Sample.overlay_up tt tt Sample.keys3);
      [reflexivity | vm_compute; reflexivity].
Defined.
